(** * gin-contrib/zap: access logging and panic recovery middleware

    A shallow embedding of the two gin middlewares of package [ginzap]
    and of the decision logic around them:

    - [ZapGo]      : src/zap.go            ([Ginzap], [OnLevel]);
    - [Part001]    : src/unnamed/part_001  ([Ginzap], [Logger], [Recovery],
                     the functional options and their [Config]);
    - [WithConfig] : [GinzapWithConfig], whose body is not among the
                     sources (only its tests and README are).

    The handlers are written in a small state-and-panic monad whose state
    holds the gin context of the request (the object [c *gin.Context]
    shared with the downstream handlers), the records handed to the zap
    logger, the number of clock readings taken so far and the number of
    zap fields built so far. *)

From Stdlib Require Import String Ascii List ZArith Bool Lia.
From Stdlib Require Import DecimalString.
Import ListNotations.
Open Scope string_scope.

Set Implicit Arguments.

(** ** Go values *)

(** [[]byte] as logged by [zap.ByteString]. *)
Definition bytes := string.

(** Go's [error] values as far as the code looks into them.  [*net.OpError]
    and [*os.SyscallError] are the two concrete types the recovery handler
    asserts on; every other error is an [errorString]. *)
Inductive error : Type :=
| errorString (s : string)
| SyscallError (Syscall : string) (Err : error)
| OpError (Op Net : string) (Source Addr : option string) (Err : error).

(** [err.Error()], following package os and package net. *)
Fixpoint Error (e : error) : string :=
  match e with
  | errorString s => s
  | SyscallError sc err => sc ++ ": " ++ Error err
  | OpError op net src addr err =>
      let s := op in
      let s := if (net =? "")%string then s else s ++ " " ++ net in
      let s := match src with Some a => s ++ " " ++ a | None => s end in
      let s := match addr with
               | Some a => (match src with Some _ => s ++ "->" | None => s ++ " " end) ++ a
               | None => s
               end in
      s ++ ": " ++ Error err
  end.

(** [interface{}]: what [panic] is given and [recover] returns.  [anyNil]
    is the nil interface: [recover()] returns it when the goroutine is not
    panicking, and also after [panic(nil)] (with the Go releases the module
    is written for: go.mod declares go 1.16, the README asks for 1.19). *)
Inductive any : Type :=
| anyNil
| anyString (s : string)
| anyInt (z : Z)
| anyError (e : error).

Definition isNil (v : any) : bool :=
  match v with anyNil => true | _ => false end.

(** ** Package strings *)

Definition lower_ascii (a : ascii) : ascii :=
  let n := nat_of_ascii a in
  if (65 <=? n)%nat && (n <=? 90)%nat then ascii_of_nat (n + 32) else a.

(** [strings.ToLower] on the ASCII letters. *)
Fixpoint ToLower (s : string) : string :=
  match s with
  | EmptyString => EmptyString
  | String a r => String (lower_ascii a) (ToLower r)
  end.

(** [strings.Contains s substr]. *)
Fixpoint Contains (s substr : string) : bool :=
  prefix substr s ||
  match s with
  | EmptyString => false
  | String _ r => Contains r substr
  end.

(** ** Package time *)

Inductive Location := UTCLoc | Local.

Record Time := mkTime { instant : Z; location : Location }.

Definition Duration := Z.

(** [t.UTC()] keeps the instant and sets the location. *)
Definition UTC (t : Time) : Time := mkTime (instant t) UTCLoc.

(** [t.Sub(u)], in nanoseconds. *)
Definition Sub (t u : Time) : Duration := (instant t - instant u)%Z.

(** ** Package zap *)

Inductive Level := DebugLevel | InfoLevel | WarnLevel | ErrorLevel
                 | DPanicLevel | PanicLevel | FatalLevel.

Inductive FieldValue :=
| IntValue (z : Z)
| StringValue (s : string)
| DurationValue (d : Duration)
| ByteStringValue (b : bytes)
| AnyValue (v : any).

Record Field := mkField { Key : string; Value : FieldValue }.

Definition zap_Int (k : string) (z : Z) := mkField k (IntValue z).
Definition zap_String (k : string) (s : string) := mkField k (StringValue s).
Definition zap_Duration (k : string) (d : Duration) := mkField k (DurationValue d).
Definition zap_ByteString (k : string) (b : bytes) := mkField k (ByteStringValue b).
Definition zap_Any (k : string) (v : any) := mkField k (AnyValue v).

(** One record handed to the logger: severity, message, ordered fields. *)
Record Entry := mkEntry { entryLevel : Level; Message : string; Fields : list Field }.

(** [*zap.Logger], seen through the one thing the middleware asks of it:
    whether its core would emit a level (the answer of [Check]). *)
Record zap_Logger := mkLogger { Enabled : Level -> bool }.

(** [ce *zapcore.CheckedEntry]: the level and message [Check] accepted. *)
Record CheckedEntry := mkChecked { ceLevel : Level; ceMessage : string }.

(** ** Package gin *)

Record URL := mkURL { Path : string; RawQuery : string }.

Record Request := mkRequest {
  Method : string;
  Url : URL;
  Header : list (string * string);
  RemoteAddr : string;
  Body : string
}.

(** [gin.ResponseWriter]: the status and whether the header went out. *)
Record ResponseWriter := mkWriter { status : Z; written : bool }.

Record Context := mkContext {
  Req : Request;
  Writer : ResponseWriter;
  Errors : list error;
  aborted : bool
}.

(** [c.Errors.Errors()]: the text of each accumulated error, in order. *)
Definition Errors_Errors (c : Context) : list string := map Error (Errors c).

Definition StatusInternalServerError : Z := 500.

(** ** The host: what the handlers call and the repository does not define *)

Class Host := {
  (** the wall clock: the [n]-th reading of [time.Now()] *)
  clock : nat -> Time;
  (** [t.Format(layout)] *)
  Format : Time -> string -> string;
  (** [c.ClientIP()] *)
  ClientIP : Context -> string;
  (** [c.Request.UserAgent()] *)
  UserAgent : Request -> string;
  (** [httputil.DumpRequest(req, body)], its error dropped as the code does *)
  DumpRequest : Request -> bool -> bytes;
  (** [debug.Stack()] *)
  debug_Stack : bytes
}.

(** ** The monad of handlers *)

Record World := mkWorld {
  ctx : Context;          (* the request's *gin.Context *)
  sink : list Entry;      (* records handed to the logger, oldest first *)
  ticks : nat;            (* readings of the clock taken so far *)
  built : nat             (* zap.Field values constructed so far *)
}.

Inductive Result (A : Type) : Type :=
| Ok (a : A)
| Panic (v : any).
Arguments Ok {A} a.
Arguments Panic {A} v.

Definition M (A : Type) : Type := World -> Result A * World.

Definition ret {A} (a : A) : M A := fun w => (Ok a, w).

Definition bind {A B} (m : M A) (k : A -> M B) : M B :=
  fun w => match m w with
           | (Ok a, w') => k a w'
           | (Panic v, w') => (Panic v, w')
           end.

Declare Scope go_scope.
Delimit Scope go_scope with go.
Notation "x <- m ;; k" := (bind m (fun x => k))
  (at level 61, m at next level, right associativity) : go_scope.
Notation "m ;; k" := (bind m (fun _ => k))
  (at level 61, right associativity) : go_scope.
Open Scope go_scope.

Definition panic {A} (v : any) : M A := fun w => (Panic v, w).

(** [for _, x := range xs { body(x) }] *)
Fixpoint range {A} (xs : list A) (body : A -> M unit) : M unit :=
  match xs with
  | [] => ret tt
  | x :: r => body x ;; range r body
  end.

(** [defer func() { err := recover(); deferred(err) }(); body]: the
    deferred function runs whether [body] returns or panics; [recover]
    stops the panic and yields its value, nil when there was none. *)
Definition defer_recover (deferred : any -> M unit) (body : M unit) : M unit :=
  fun w => match body w with
           | (Ok _, w') => deferred anyNil w'
           | (Panic v, w') => deferred v w'
           end.

(** The context [c], read as it is at this point of the handler. *)
Definition this : M Context := fun w => (Ok (ctx w), w).

Definition modify_ctx (f : Context -> Context) : M unit :=
  fun w => (Ok tt, mkWorld (f (ctx w)) (sink w) (ticks w) (built w)).

(** [time.Now()] *)
Definition time_Now `{Host} : M Time :=
  fun w => (Ok (clock (ticks w)), mkWorld (ctx w) (sink w) (S (ticks w)) (built w)).

(** The argument list of a logging call: each element is a field
    constructor call, counted in [built]. *)
Definition fields (fs : list Field) : M (list Field) :=
  fun w => (Ok fs, mkWorld (ctx w) (sink w) (ticks w) (built w + length fs)).

Definition emit (e : Entry) : M unit :=
  fun w => (Ok tt, mkWorld (ctx w) (sink w ++ [e]) (ticks w) (built w)).

(** [logger.Error(msg, fields...)] and [logger.Info(msg, fields...)]: the
    record is handed to the logger; what the logger's core then does with
    a record it is handed is zap's business. *)
Definition logger_Error (logger : zap_Logger) (msg : string) (fs : list Field) : M unit :=
  emit (mkEntry ErrorLevel msg fs).

Definition logger_Info (logger : zap_Logger) (msg : string) (fs : list Field) : M unit :=
  emit (mkEntry InfoLevel msg fs).

(** [logger.Check(lvl, msg)]: nil when the logger would discard [lvl]. *)
Definition logger_Check (logger : zap_Logger) (lvl : Level) (msg : string)
  : M (option CheckedEntry) :=
  ret (if Enabled logger lvl then Some (mkChecked lvl msg) else None).

(** [ce.Write(fields...)] *)
Definition ce_Write (ce : CheckedEntry) (fs : list Field) : M unit :=
  emit (mkEntry (ceLevel ce) (ceMessage ce) fs).

(** [c.Error(err)]: appends to [c.Errors]. *)
Definition c_Error (err : error) : M unit :=
  modify_ctx (fun c => mkContext (Req c) (Writer c) (Errors c ++ [err]) (aborted c)).

(** [c.Abort()] *)
Definition c_Abort : M unit :=
  modify_ctx (fun c => mkContext (Req c) (Writer c) (Errors c) true).

(** [c.AbortWithStatus(code)]: sets the status, writes the header, aborts
    (gin v1.8.1, the version of go.mod, sets the status unconditionally). *)
Definition c_AbortWithStatus (code : Z) : M unit :=
  modify_ctx (fun c => mkContext (Req c) (mkWriter code true) (Errors c) true).

(** [err.(error)]: panics when the dynamic type is not an error. *)
Definition assert_error (v : any) : M error :=
  match v with
  | anyError e => ret e
  | _ => panic (anyString "interface conversion: interface {} is not error")
  end.

(** A gin handler: what it does with the rest of the chain, [c.Next()]. *)
Definition HandlerFunc := M unit -> M unit.

(** ** src/zap.go *)

Module ZapGo.
Section Handlers.
Context `{Host}.

Definition OnLevel (logger : zap_Logger) (lvl : Level) (timeFormat : string)
    (utc : bool) : HandlerFunc := fun c_Next =>
  start <- time_Now ;;
  (* some evil middlewares modify this values *)
  c <- this ;;
  let path := Path (Url (Req c)) in
  c_Next ;;

  end_ <- time_Now ;;
  let latency := Sub end_ start in
  let end_ := if utc then UTC end_ else end_ in

  c <- this ;;
  if (0 <? length (Errors c))%nat then
    (* Append error field if this is an erroneous request. *)
    range (Errors_Errors c) (fun e => logger_Error logger e [])
  else
    ce <- logger_Check logger lvl path ;;
    match ce with
    | Some ce =>
        fs <- fields [zap_Int "status" (status (Writer c));
                      zap_String "method" (Method (Req c));
                      zap_String "path" path;
                      zap_String "ip" (ClientIP c);
                      zap_String "user-agent" (UserAgent (Req c));
                      zap_String "time" (Format end_ timeFormat);
                      zap_Duration "latency" latency] ;;
        ce_Write ce fs
    | None => ret tt
    end.

Definition Ginzap (logger : zap_Logger) (timeFormat : string) (utc : bool)
  : HandlerFunc :=
  OnLevel logger InfoLevel timeFormat utc.

End Handlers.
End ZapGo.

(** ** src/unnamed/part_001 *)

Module Part001.
Section Handlers.
Context `{Host}.

Definition RFC3339Nano : string := "2006-01-02T15:04:05.999999999Z07:00".

Record Config := mkConfig {
  timeFormat : string;
  utc : bool;
  customFields : list (Context -> Field)
}.

(** [type Option func(c *Config)]: the update it makes to the Config. *)
Definition Option := Config -> Config.

Definition WithTimeFormat (layout : string) : Option :=
  fun c => mkConfig layout (utc c) (customFields c).

Definition WithUTC (b : bool) : Option :=
  fun c => mkConfig (timeFormat c) b (customFields c).

Definition WithCustomFields (fs : list (Context -> Field)) : Option :=
  fun c => mkConfig (timeFormat c) (utc c) fs.

(** [cfg := Config{time.RFC3339Nano, false, nil};
     for _, opt := range opts { opt(&cfg) }] *)
Definition apply_opts (opts : list Option) : Config :=
  fold_left (fun cfg opt => opt cfg) opts (mkConfig RFC3339Nano false []).

Definition Logger (logger : zap_Logger) (opts : list Option) : HandlerFunc :=
  let cfg := apply_opts opts in
  fun c_Next =>
  start <- time_Now ;;
  (* some evil middlewares modify this values *)
  c <- this ;;
  let path := Path (Url (Req c)) in
  let query := RawQuery (Url (Req c)) in
  c_Next ;;

  end_ <- time_Now ;;
  let latency := Sub end_ start in
  let end_ := if utc cfg then UTC end_ else end_ in

  c <- this ;;
  if (0 <? length (Errors c))%nat then
    (* Append error field if this is an erroneous request. *)
    range (Errors_Errors c) (fun e => logger_Error logger e [])
  else
    fs <- fields [zap_Int "status" (status (Writer c));
                  zap_String "method" (Method (Req c));
                  zap_String "path" path;
                  zap_String "query" query;
                  zap_String "ip" (ClientIP c);
                  zap_String "user-agent" (UserAgent (Req c));
                  zap_String "time" (Format end_ (timeFormat cfg));
                  zap_Duration "latency" latency] ;;
    cs <- fields (map (fun field => field c) (customFields cfg)) ;;
    logger_Info logger path (fs ++ cs).

Definition Ginzap (logger : zap_Logger) (timeFormat : string) (utc : bool)
  : HandlerFunc :=
  Logger logger [WithTimeFormat timeFormat; WithUTC utc].

(** The test of lines 150-158 on the recovered value. *)
Definition brokenPipe (err : any) : bool :=
  match err with
  | anyError (OpError _ _ _ _ ne_Err) =>
      match ne_Err with
      | SyscallError _ _ =>
          Contains (ToLower (Error ne_Err)) "broken pipe" ||
          Contains (ToLower (Error ne_Err)) "connection reset by peer"
      | _ => false
      end
  | _ => false
  end.

(** The custom field [Recovery] appends when [stack] is set. *)
Definition stackField : Context -> Field :=
  fun _ => zap_ByteString "stack" debug_Stack.

Definition recovery_cfg (stack : bool) (opts : list Option) : Config :=
  let cfg := apply_opts opts in
  if stack
  then mkConfig (timeFormat cfg) (utc cfg) (customFields cfg ++ [stackField])
  else cfg.

Definition Recovery (logger : zap_Logger) (stack : bool) (opts : list Option)
  : HandlerFunc :=
  let cfg := recovery_cfg stack opts in
  fun c_Next =>
  defer_recover (fun err =>
    if negb (isNil err) then
      (* Check for a broken connection, as it is not really a
         condition that warrants a panic stack trace. *)
      c <- this ;;
      let httpRequest := DumpRequest (Req c) false in
      if brokenPipe err then
        fs <- fields [zap_Any "error" err;
                      zap_ByteString "request" httpRequest] ;;
        logger_Error logger (Path (Url (Req c))) fs ;;
        (* If the connection is dead, we can't write a status to it. *)
        e <- assert_error err ;;
        c_Error e ;;
        c_Abort
      else
        now <- time_Now ;;
        let now := if utc cfg then UTC now else now in
        fs <- fields [zap_String "time" (Format now (timeFormat cfg));
                      zap_Any "error" err;
                      zap_ByteString "request" httpRequest] ;;
        cs <- fields (map (fun field => field c) (customFields cfg)) ;;
        logger_Error logger "[Recovery from panic]" (fs ++ cs) ;;
        c_AbortWithStatus StatusInternalServerError
    else ret tt)
  c_Next.


End Handlers.
End Part001.

(** ** GinzapWithConfig *)

Module WithConfig.
Section Handlers.
Context `{Host}.

(** [*regexp.Regexp], through [MatchString]. *)
Record Regexp := mkRegexp { MatchString : string -> bool }.

(** Modelled from the spec: the exported [Config] struct that the tests
    and the README fill in ([TimeFormat], [UTC], [SkipPaths],
    [SkipPathRegexps], [Context], [DefaultLevel], [Skipper],
    [LogErrorsOnce]) is declared in a source file that is missing; the
    fields are those of the spec's Configuration, under the names the
    tests use. *)
Record Config := mkConfig {
  TimeFormat : string;
  UTC_ : bool;
  SkipPaths : list string;
  SkipPathRegexps : list Regexp;
  Skipper : option (Context -> bool);
  DefaultLevel : Level;
  LogErrorsOnce : bool;
  CustomFields : list (Context -> Field);
  Context_ : option (Context -> list Field)
}.

Definition LF : string := String (ascii_of_nat 10) EmptyString.

(** Modelled from the spec: the "2-digit-index" of the aggregated message,
    as the verb [%02d] prints it: decimal, padded with a zero to two
    digits. *)
Definition fmt_02d (n : nat) : string :=
  let s := NilZero.string_of_uint (Nat.to_uint n) in
  if (String.length s <? 2)%nat then "0" ++ s else s.

(** Modelled from the spec: one line of the aggregated message,
    "Error #<2-digit-index>: <error text>\n". *)
Definition error_line (i : nat) (e : string) : string :=
  "Error #" ++ fmt_02d i ++ ": " ++ e ++ LF.

(** Modelled from the spec: the aggregated message, built as a loop over
    the errors in accumulation order would: [msg] so far, [i] the index of
    the next error. *)
Fixpoint join_errors (msg : string) (i : nat) (errs : list string) : string :=
  match errs with
  | [] => msg
  | e :: r => join_errors (msg ++ error_line i e) (S i) r
  end.

(** Modelled from the spec: the skip evaluation of section 4.1, on the
    context and the path captured before the downstream chain runs. *)
Definition skipped (conf : Config) (c : Context) (path : string) : bool :=
  match Skipper conf with Some skipper => skipper c | None => false end
  || existsb (String.eqb path) (SkipPaths conf)
  || existsb (fun reg => MatchString reg path) (SkipPathRegexps conf).

(** Modelled from the spec: [GinzapWithConfig], the access logger that
    takes a [Config]; its body is in a source file that is missing.  The
    steps are those of the contract of section 4.1, in its order: start
    time, capture of path and query, skip evaluation, downstream, end time
    and latency, then the error branch or the success branch (with the
    level pre-check of section 6). *)
Definition GinzapWithConfig (logger : zap_Logger) (conf : Config) : HandlerFunc :=
  fun c_Next =>
  start <- time_Now ;;
  c <- this ;;
  let path := Path (Url (Req c)) in
  let query := RawQuery (Url (Req c)) in
  let skip := skipped conf c path in
  c_Next ;;

  end_ <- time_Now ;;
  let latency := Sub end_ start in
  let end_ := if UTC_ conf then UTC end_ else end_ in

  if skip then ret tt else
  c <- this ;;
  if (0 <? length (Errors c))%nat then
    if LogErrorsOnce conf then
      logger_Error logger (join_errors "" 1 (Errors_Errors c)) []
    else
      range (Errors_Errors c) (fun e => logger_Error logger e [])
  else
    ce <- logger_Check logger (DefaultLevel conf) path ;;
    match ce with
    | Some ce =>
        fs <- fields [zap_Int "status" (status (Writer c));
                      zap_String "method" (Method (Req c));
                      zap_String "path" path;
                      zap_String "query" query;
                      zap_String "ip" (ClientIP c);
                      zap_String "user-agent" (UserAgent (Req c));
                      zap_String "time" (Format end_ (TimeFormat conf));
                      zap_Duration "latency" latency] ;;
        cs <- fields (map (fun field => field c) (CustomFields conf)) ;;
        xs <- fields (match Context_ conf with Some fn => fn c | None => [] end) ;;
        ce_Write ce (fs ++ cs ++ xs)
    | None => ret tt
    end.

End Handlers.
End WithConfig.

(** ** A concrete host and concrete requests, to run the handlers on *)

Definition demoHost : Host := {|
  clock := fun n => mkTime (1000 * Z.of_nat n) Local;
  Format := fun t layout => layout;
  ClientIP := fun c => RemoteAddr (Req c);
  UserAgent := fun r => "curl";
  DumpRequest := fun r body =>
    (Method r ++ " " ++ Path (Url r) ++ " HTTP/1.1")
    ++ (if body then Body r else "");
  debug_Stack := "goroutine 1 [running]"
|}.

Definition demoRequest (path query : string) : Request :=
  mkRequest "GET" (mkURL path query) [] "192.0.2.1" "".

(** A fresh context as gin hands it to the first handler: status 200,
    nothing written, no errors, not aborted. *)
Definition freshContext (r : Request) : Context :=
  mkContext r (mkWriter 200 false) [] false.

Definition freshWorld (r : Request) : World :=
  mkWorld (freshContext r) [] 0 0.

(** A logger as the tests build it: [observer.New(zap.InfoLevel)]. *)
Definition infoLogger : zap_Logger :=
  mkLogger (fun l => match l with DebugLevel => false | _ => true end).

(** A logger whose core lets only Error and above through. *)
Definition errorLogger : zap_Logger :=
  mkLogger (fun l => match l with
                     | DebugLevel | InfoLevel | WarnLevel => false
                     | _ => true end).

(** Downstream chains. *)
Definition handler_ok : M unit := ret tt.

Definition handler_panic (v : any) : M unit := panic v.

(** [c.Error(errors.New(a)); c.Error(errors.New(b))] *)
Definition handler_errors (es : list string) : M unit :=
  range es (fun e => c_Error (errorString e)).

(** A downstream handler that rewrites the request's path and query. *)
Definition handler_rewrite (path query : string) : M unit :=
  modify_ctx (fun c =>
    mkContext (mkRequest (Method (Req c)) (mkURL path query) (Header (Req c))
                         (RemoteAddr (Req c)) (Body (Req c)))
              (Writer c) (Errors c) (aborted c)).

(** A custom field function, as [WithCustomFields] takes them. *)
Definition methodField : Context -> Field :=
  fun c => zap_String "verb" (Method (Req c)).

(** A Config as the tests write it: only the named fields set. *)
Definition testConfig (skipPaths : list string)
    (skipper : option (Context -> bool)) (once : bool) : WithConfig.Config :=
  WithConfig.mkConfig "2006-01-02T15:04:05Z07:00" true skipPaths [] skipper
                      InfoLevel once [] None.

(** [regexp.MustCompile(`^/no_`)], as far as [MatchString] goes. *)
Definition rxNoLog : WithConfig.Regexp :=
  WithConfig.mkRegexp (fun s => prefix "/no_" s).

(** A write on a connection the client has closed. *)
Definition epipe : error :=
  OpError "write" "tcp" None (Some "192.0.2.1:4242")
          (SyscallError "write" (errorString "broken pipe")).

(** The world once [time.Now()] has been read: what the downstream chain
    starts from inside the access loggers. *)
Definition after_Now (w : World) : World :=
  mkWorld (ctx w) (sink w) (S (ticks w)) (built w).

(** One Error record per accumulated error, message only. *)
Definition error_entries (c : Context) : list Entry :=
  map (fun e => mkEntry ErrorLevel (Error e) []) (Errors c).


(** ** The records the access loggers write on the success branch *)

Section Records.
Context `{Host}.

(** The 7 fields of [OnLevel] and the 8 fields of [Logger]. *)
Definition OnLevel_fields (timeFormat : string) (utc : bool)
    (path : string) (start end_ : Time) (c : Context) : list Field :=
  [zap_Int "status" (status (Writer c));
   zap_String "method" (Method (Req c));
   zap_String "path" path;
   zap_String "ip" (ClientIP c);
   zap_String "user-agent" (UserAgent (Req c));
   zap_String "time" (Format (if utc then UTC end_ else end_) timeFormat);
   zap_Duration "latency" (Sub end_ start)].

Definition Logger_fields (timeFormat : string) (utc : bool)
    (path query : string) (start end_ : Time) (c : Context) : list Field :=
  [zap_Int "status" (status (Writer c));
   zap_String "method" (Method (Req c));
   zap_String "path" path;
   zap_String "query" query;
   zap_String "ip" (ClientIP c);
   zap_String "user-agent" (UserAgent (Req c));
   zap_String "time" (Format (if utc then UTC end_ else end_) timeFormat);
   zap_Duration "latency" (Sub end_ start)].

End Records.

(** ** Assumptions on the host and shapes of option lists *)

Section Assumptions.
Context `{Host}.

(** The host clock never goes back. *)
Definition monotone_clock : Prop :=
  forall n m, (n <= m)%nat -> (instant (clock n) <= instant (clock m))%Z.

End Assumptions.

(** An option that is not [WithCustomFields]. *)
Definition keeps_customFields (o : Part001.Option) : Prop :=
  (exists layout, o = Part001.WithTimeFormat layout) \/
  (exists b, o = Part001.WithUTC b).

(** An option that is not [WithUTC]. *)
Definition keeps_utc (o : Part001.Option) : Prop :=
  (exists layout, o = Part001.WithTimeFormat layout) \/
  (exists fs, o = Part001.WithCustomFields fs).

(** An option that is not [WithTimeFormat]. *)
Definition keeps_timeFormat (o : Part001.Option) : Prop :=
  (exists b, o = Part001.WithUTC b) \/
  (exists fs, o = Part001.WithCustomFields fs).

(** A downstream handler that registers an error and then panics. *)
Definition handler_error_then_panic (e : string) (v : any) : M unit :=
  c_Error (errorString e) ;; panic v.

(** * Properties *)

Open Scope list_scope.
Unset Implicit Arguments.

Section Properties.
Context `{Host}.

(** ** The monad *)

Lemma bind_Ok {A B} (m : M A) (k : A -> M B) w a w' :
  m w = (Ok a, w') -> bind m k w = k a w'.
Proof. unfold bind. intros ->. reflexivity. Qed.

Lemma bind_Panic {A B} (m : M A) (k : A -> M B) w v w' :
  m w = (Panic v, w') -> bind m k w = (Panic v, w').
Proof. unfold bind. intros ->. reflexivity. Qed.

Lemma range_logger_Error logger (es : list string) w :
  range es (fun e => logger_Error logger e []) w =
  (Ok tt, mkWorld (ctx w)
                  (sink w ++ map (fun e => mkEntry ErrorLevel e []) es)
                  (ticks w) (built w)).
Proof.
  revert w. induction es as [|e es IH]; intros w; simpl.
  - unfold ret. rewrite app_nil_r. destruct w; reflexivity.
  - unfold bind, logger_Error, emit at 1. rewrite IH. simpl.
    rewrite <- app_assoc. reflexivity.
Qed.

Lemma length_pos_nonempty {A} (l : list A) :
  (0 <? length l)%nat = true <-> l <> [].
Proof.
  destruct l; simpl; split; intros; try congruence; try discriminate; auto.
Qed.

Lemma length_pos_empty {A} (l : list A) :
  (0 <? length l)%nat = false <-> l = [].
Proof.
  destruct l; simpl; split; intros; try congruence; try discriminate; auto.
Qed.

(** ** Runs of the access loggers *)

(** Runs a handler up to the return of the downstream chain, whose
    outcome is given by [Hn]. *)
Ltac run_chain Hn :=
  unfold bind, time_Now, this; simpl;
  unfold after_Now in Hn; rewrite Hn; simpl.

Lemma OnLevel_panics logger lvl timeFormat utc next w v w1 :
  next (after_Now w) = (Panic v, w1) ->
  ZapGo.OnLevel logger lvl timeFormat utc next w = (Panic v, w1).
Proof.
  intros Hn. unfold ZapGo.OnLevel. run_chain Hn. reflexivity.
Qed.

Lemma OnLevel_errors logger lvl timeFormat utc next w w1 :
  next (after_Now w) = (Ok tt, w1) ->
  Errors (ctx w1) <> [] ->
  ZapGo.OnLevel logger lvl timeFormat utc next w =
  (Ok tt, mkWorld (ctx w1) (sink w1 ++ error_entries (ctx w1))
                  (S (ticks w1)) (built w1)).
Proof.
  intros Hn He. unfold ZapGo.OnLevel. run_chain Hn.
  apply length_pos_nonempty in He. rewrite He.
  rewrite range_logger_Error. simpl.
  unfold error_entries, Errors_Errors. rewrite map_map. reflexivity.
Qed.

Lemma OnLevel_success logger lvl timeFormat utc next w w1 :
  next (after_Now w) = (Ok tt, w1) ->
  Errors (ctx w1) = [] ->
  ZapGo.OnLevel logger lvl timeFormat utc next w =
  (Ok tt,
   if Enabled logger lvl
   then mkWorld (ctx w1)
          (sink w1 ++
           [mkEntry lvl (Path (Url (Req (ctx w))))
              (OnLevel_fields timeFormat utc (Path (Url (Req (ctx w))))
                 (clock (ticks w)) (clock (ticks w1)) (ctx w1))])
          (S (ticks w1)) (built w1 + 7)
   else mkWorld (ctx w1) (sink w1) (S (ticks w1)) (built w1)).
Proof.
  intros Hn He. unfold ZapGo.OnLevel. run_chain Hn.
  apply length_pos_empty in He. rewrite He.
  unfold logger_Check, ret. destruct (Enabled logger lvl); reflexivity.
Qed.

Lemma Logger_panics logger opts next w v w1 :
  next (after_Now w) = (Panic v, w1) ->
  Part001.Logger logger opts next w = (Panic v, w1).
Proof.
  intros Hn. unfold Part001.Logger. run_chain Hn. reflexivity.
Qed.

Lemma Logger_errors logger opts next w w1 :
  next (after_Now w) = (Ok tt, w1) ->
  Errors (ctx w1) <> [] ->
  Part001.Logger logger opts next w =
  (Ok tt, mkWorld (ctx w1) (sink w1 ++ error_entries (ctx w1))
                  (S (ticks w1)) (built w1)).
Proof.
  intros Hn He. unfold Part001.Logger. run_chain Hn.
  apply length_pos_nonempty in He. rewrite He.
  rewrite range_logger_Error. simpl.
  unfold error_entries, Errors_Errors. rewrite map_map. reflexivity.
Qed.

Lemma Logger_success logger opts next w w1 :
  next (after_Now w) = (Ok tt, w1) ->
  Errors (ctx w1) = [] ->
  let cfg := Part001.apply_opts opts in
  Part001.Logger logger opts next w =
  (Ok tt,
   mkWorld (ctx w1)
     (sink w1 ++
      [mkEntry InfoLevel (Path (Url (Req (ctx w))))
         (Logger_fields (Part001.timeFormat cfg) (Part001.utc cfg)
            (Path (Url (Req (ctx w)))) (RawQuery (Url (Req (ctx w))))
            (clock (ticks w)) (clock (ticks w1)) (ctx w1)
          ++ map (fun field => field (ctx w1)) (Part001.customFields cfg))])
     (S (ticks w1))
     (built w1 + 8 + length (Part001.customFields cfg))).
Proof.
  intros Hn He cfg. unfold Part001.Logger. run_chain Hn.
  apply length_pos_empty in He. rewrite He.
  unfold fields, logger_Info, emit. simpl. rewrite length_map. reflexivity.
Qed.

(** ** Classification of the recovered value *)


Lemma brokenPipe_is_error (v : any) :
  Part001.brokenPipe v = true -> exists e, v = anyError e.
Proof.
  destruct v; simpl; try discriminate. intros _. eexists; reflexivity.
Qed.




(** ** Runs of the recovery handler *)

Lemma Recovery_no_panic logger stack opts next w w1 :
  next w = (Ok tt, w1) ->
  Part001.Recovery logger stack opts next w = (Ok tt, w1).
Proof.
  intros Hn. unfold Part001.Recovery, defer_recover. rewrite Hn. reflexivity.
Qed.

Lemma Recovery_nil_panic logger stack opts next w w1 :
  next w = (Panic anyNil, w1) ->
  Part001.Recovery logger stack opts next w = (Ok tt, w1).
Proof.
  intros Hn. unfold Part001.Recovery, defer_recover. rewrite Hn. reflexivity.
Qed.

Lemma Recovery_broken logger stack opts next w e w1 :
  next w = (Panic (anyError e), w1) ->
  Part001.brokenPipe (anyError e) = true ->
  Part001.Recovery logger stack opts next w =
  (Ok tt,
   mkWorld
     (mkContext (Req (ctx w1)) (Writer (ctx w1)) (Errors (ctx w1) ++ [e]) true)
     (sink w1 ++
      [mkEntry ErrorLevel (Path (Url (Req (ctx w1))))
         [zap_Any "error" (anyError e);
          zap_ByteString "request" (DumpRequest (Req (ctx w1)) false)]])
     (ticks w1) (built w1 + 2)).
Proof.
  intros Hn Hb. unfold Part001.Recovery, defer_recover. rewrite Hn.
  cbn [isNil negb]. unfold bind at 1. unfold this at 1.
  cbv beta iota. rewrite Hb. reflexivity.
Qed.


(** ** Runs of GinzapWithConfig *)

Lemma skipped_spec conf c path :
  WithConfig.skipped conf c path = true <->
  ((exists skipper, WithConfig.Skipper conf = Some skipper /\ skipper c = true) \/
   In path (WithConfig.SkipPaths conf) \/
   (exists reg, In reg (WithConfig.SkipPathRegexps conf) /\
                WithConfig.MatchString reg path = true)).
Proof.
  unfold WithConfig.skipped. rewrite !orb_true_iff, !existsb_exists. split.
  - intros [[Hs | (p & Hin & Heq)] | (reg & Hin & Hm)].
    + left. destruct (WithConfig.Skipper conf) as [sk|]; [|discriminate].
      exists sk. split; [reflexivity | exact Hs].
    + right; left. apply String.eqb_eq in Heq. now subst.
    + right; right. now exists reg.
  - intros [(sk & Hsk & Hs) | [Hin | (reg & Hin & Hm)]].
    + left; left. now rewrite Hsk.
    + left; right. exists path. split; [exact Hin | apply String.eqb_refl].
    + right. now exists reg.
Qed.

Lemma GinzapWithConfig_panics logger conf next w v w1 :
  next (after_Now w) = (Panic v, w1) ->
  WithConfig.GinzapWithConfig logger conf next w = (Panic v, w1).
Proof.
  intros Hn. unfold WithConfig.GinzapWithConfig. run_chain Hn. reflexivity.
Qed.

Lemma GinzapWithConfig_skipped logger conf next w w1 :
  next (after_Now w) = (Ok tt, w1) ->
  WithConfig.skipped conf (ctx w) (Path (Url (Req (ctx w)))) = true ->
  WithConfig.GinzapWithConfig logger conf next w = (Ok tt, after_Now w1).
Proof.
  intros Hn Hs. unfold WithConfig.GinzapWithConfig. run_chain Hn. rewrite Hs. reflexivity.
Qed.

Lemma GinzapWithConfig_errors logger conf next w w1 :
  next (after_Now w) = (Ok tt, w1) ->
  WithConfig.skipped conf (ctx w) (Path (Url (Req (ctx w)))) = false ->
  Errors (ctx w1) <> [] ->
  WithConfig.GinzapWithConfig logger conf next w =
  (Ok tt,
   mkWorld (ctx w1)
     (sink w1 ++
      if WithConfig.LogErrorsOnce conf
      then [mkEntry ErrorLevel
              (WithConfig.join_errors "" 1 (Errors_Errors (ctx w1))) []]
      else error_entries (ctx w1))
     (S (ticks w1)) (built w1)).
Proof.
  intros Hn Hs He. unfold WithConfig.GinzapWithConfig. run_chain Hn. rewrite Hs. simpl.
  apply length_pos_nonempty in He. rewrite He.
  destruct (WithConfig.LogErrorsOnce conf).
  - reflexivity.
  - rewrite range_logger_Error. simpl.
    unfold error_entries, Errors_Errors. rewrite map_map. reflexivity.
Qed.

Lemma GinzapWithConfig_success logger conf next w w1 :
  next (after_Now w) = (Ok tt, w1) ->
  WithConfig.skipped conf (ctx w) (Path (Url (Req (ctx w)))) = false ->
  Errors (ctx w1) = [] ->
  Enabled logger (WithConfig.DefaultLevel conf) = true ->
  sink (snd (WithConfig.GinzapWithConfig logger conf next w)) =
  sink w1 ++
  [mkEntry (WithConfig.DefaultLevel conf) (Path (Url (Req (ctx w))))
     (Logger_fields (WithConfig.TimeFormat conf) (WithConfig.UTC_ conf)
        (Path (Url (Req (ctx w)))) (RawQuery (Url (Req (ctx w))))
        (clock (ticks w)) (clock (ticks w1)) (ctx w1)
      ++ map (fun field => field (ctx w1)) (WithConfig.CustomFields conf)
      ++ match WithConfig.Context_ conf with
         | Some fn => fn (ctx w1)
         | None => []
         end)].
Proof.
  intros Hn Hs He Hl. unfold WithConfig.GinzapWithConfig. run_chain Hn. rewrite Hs. simpl.
  apply length_pos_empty in He. rewrite He.
  unfold logger_Check, ret. rewrite Hl. reflexivity.
Qed.




(** Up to 99 errors the index takes exactly two digits. *)
Lemma fmt_02d_two_digits i :
  i < 100 -> String.length (WithConfig.fmt_02d i) = 2.
Proof.
  intros Hi.
  assert (Hall : forallb (fun n => Nat.eqb (String.length (WithConfig.fmt_02d n)) 2)
                         (seq 0 100) = true) by (vm_compute; reflexivity).
  rewrite forallb_forall in Hall.
  apply Nat.eqb_eq, Hall, in_seq. lia.
Qed.


(** ** The recovery interceptor *)



(** C7.  When the downstream chain panics with a value classified as a
    broken connection, [Recovery] hands the logger exactly one record
    (level Error, message the request path, fields "error" with the panic
    value and "request" with the dump of the request without its body),
    appends the panic value to the errors of the context, aborts the
    context, and leaves the response writer (status, written flag) and the
    request as they were. *)
Theorem recovery_broken_connection logger stack opts next w v w1 :
  next w = (Panic v, w1) ->
  Part001.brokenPipe v = true ->
  let w2 := snd (Part001.Recovery logger stack opts next w) in
  fst (Part001.Recovery logger stack opts next w) = Ok tt /\
  sink w2 =
    sink w1 ++
    [mkEntry ErrorLevel (Path (Url (Req (ctx w1))))
       [zap_Any "error" v;
        zap_ByteString "request" (DumpRequest (Req (ctx w1)) false)]] /\
  (exists e, v = anyError e /\ Errors (ctx w2) = Errors (ctx w1) ++ [e]) /\
  aborted (ctx w2) = true /\
  Writer (ctx w2) = Writer (ctx w1) /\
  Req (ctx w2) = Req (ctx w1).
Proof.
  intros Hn Hb w2. subst w2.
  destruct (brokenPipe_is_error v Hb) as [e ->].
  rewrite (Recovery_broken logger stack opts next w e w1 Hn Hb). simpl.
  repeat split. exists e. split; reflexivity.
Qed.


(** ** The access loggers *)

(** C3.  When, on the context and the path as they are before the
    downstream chain runs, the skipper is set and answers true, or the
    path is one of [SkipPaths], or one of [SkipPathRegexps] matches it,
    [GinzapWithConfig] still runs the downstream chain (its outcome and the
    context it leaves are the outcome of the handler) and hands the logger
    no record and builds no field, whatever the chain does to the request
    meanwhile. *)
Theorem skipped_request_no_record logger conf next w :
  ((exists skipper, WithConfig.Skipper conf = Some skipper /\ skipper (ctx w) = true) \/
   In (Path (Url (Req (ctx w)))) (WithConfig.SkipPaths conf) \/
   (exists reg, In reg (WithConfig.SkipPathRegexps conf) /\
                WithConfig.MatchString reg (Path (Url (Req (ctx w)))) = true)) ->
  let down := next (after_Now w) in
  let run := WithConfig.GinzapWithConfig logger conf next w in
  fst run = fst down /\
  ctx (snd run) = ctx (snd down) /\
  sink (snd run) = sink (snd down) /\
  built (snd run) = built (snd down).
Proof.
  intros Hs down run. subst down run. apply skipped_spec in Hs.
  destruct (next (after_Now w)) as [[[] | v] w1] eqn:Hn.
  - rewrite (GinzapWithConfig_skipped logger conf next w w1 Hn Hs). now simpl.
  - rewrite (GinzapWithConfig_panics logger conf next w v w1 Hn). now simpl.
Qed.

(** C4 (as amended).  For a request that ends with no accumulated error,
    [Logger] hands the logger exactly one record, at Info, message the
    captured path, whose fields are in this order: status, method, path,
    query, ip, user-agent, time, latency, then the output of each custom
    field function in declaration order.  [OnLevel] hands over, when the
    logger's check lets the level through, exactly one record at that
    level with the fields status, method, path, ip, user-agent, time,
    latency (no query, no custom field), and none otherwise. *)
Theorem success_record_fields logger lvl layout utc opts next w w1 :
  next (after_Now w) = (Ok tt, w1) ->
  Errors (ctx w1) = [] ->
  let path := Path (Url (Req (ctx w))) in
  let query := RawQuery (Url (Req (ctx w))) in
  let c := ctx w1 in
  let start := clock (ticks w) in
  let end_ := clock (ticks w1) in
  let cfg := Part001.apply_opts opts in
  sink (snd (Part001.Logger logger opts next w)) =
    sink w1 ++
    [mkEntry InfoLevel path
       ([zap_Int "status" (status (Writer c));
         zap_String "method" (Method (Req c));
         zap_String "path" path;
         zap_String "query" query;
         zap_String "ip" (ClientIP c);
         zap_String "user-agent" (UserAgent (Req c));
         zap_String "time"
           (Format (if Part001.utc cfg then UTC end_ else end_)
                   (Part001.timeFormat cfg));
         zap_Duration "latency" (Sub end_ start)]
        ++ map (fun field => field c) (Part001.customFields cfg))] /\
  sink (snd (ZapGo.OnLevel logger lvl layout utc next w)) =
    sink w1 ++
    (if Enabled logger lvl
     then [mkEntry lvl path
             [zap_Int "status" (status (Writer c));
              zap_String "method" (Method (Req c));
              zap_String "path" path;
              zap_String "ip" (ClientIP c);
              zap_String "user-agent" (UserAgent (Req c));
              zap_String "time" (Format (if utc then UTC end_ else end_) layout);
              zap_Duration "latency" (Sub end_ start)]]
     else []).
Proof.
  intros Hn He path query c start end_ cfg. split.
  - rewrite (Logger_success logger opts next w w1 Hn He). reflexivity.
  - rewrite (OnLevel_success logger lvl layout utc next w w1 Hn He).
    destruct (Enabled logger lvl); simpl; [reflexivity | now rewrite app_nil_r].
Qed.


(** C6.  A request that ends with errors accumulated gets, from [OnLevel]
    and from [Logger] alike (neither aggregates), one Error record per
    error, in accumulation order, each with the text of its error as
    message and with no field, and no other record. *)
Theorem errors_one_record_each logger lvl layout utc opts next w w1 :
  next (after_Now w) = (Ok tt, w1) ->
  Errors (ctx w1) <> [] ->
  let records := map (fun e => mkEntry ErrorLevel (Error e) []) (Errors (ctx w1)) in
  sink (snd (ZapGo.OnLevel logger lvl layout utc next w)) = sink w1 ++ records /\
  sink (snd (Part001.Logger logger opts next w)) = sink w1 ++ records.
Proof.
  intros Hn He records. split.
  - now rewrite (OnLevel_errors logger lvl layout utc next w w1 Hn He).
  - now rewrite (Logger_errors logger opts next w w1 Hn He).
Qed.

(** The same with the Config of [GinzapWithConfig] when [LogErrorsOnce]
    is off. *)
Lemma GinzapWithConfig_errors_each logger conf next w w1 :
  next (after_Now w) = (Ok tt, w1) ->
  WithConfig.skipped conf (ctx w) (Path (Url (Req (ctx w)))) = false ->
  WithConfig.LogErrorsOnce conf = false ->
  Errors (ctx w1) <> [] ->
  sink (snd (WithConfig.GinzapWithConfig logger conf next w)) =
  sink w1 ++ map (fun e => mkEntry ErrorLevel (Error e) []) (Errors (ctx w1)).
Proof.
  intros Hn Hs Ho He.
  now rewrite (GinzapWithConfig_errors logger conf next w w1 Hn Hs He), Ho.
Qed.

(** C8.  The path and the query are read from the request before the
    downstream chain runs: on the success branch the record's message and
    its "path" field are the path the request had on entry (and, in
    [Logger], its "query" field the query it had on entry), whatever the
    chain has made of the request by the time it returns. *)
Theorem record_uses_captured_path logger lvl layout utc opts next w w1 :
  next (after_Now w) = (Ok tt, w1) ->
  Errors (ctx w1) = [] ->
  let path := Path (Url (Req (ctx w))) in
  let query := RawQuery (Url (Req (ctx w))) in
  (exists e,
     sink (snd (Part001.Logger logger opts next w)) = sink w1 ++ [e] /\
     Message e = path /\
     nth_error (Fields e) 2 = Some (zap_String "path" path) /\
     nth_error (Fields e) 3 = Some (zap_String "query" query)) /\
  (exists e,
     sink (snd (ZapGo.OnLevel logger lvl layout utc next w)) =
       sink w1 ++ (if Enabled logger lvl then [e] else []) /\
     Message e = path /\
     nth_error (Fields e) 2 = Some (zap_String "path" path)).
Proof.
  intros Hn He path query. split.
  - rewrite (Logger_success logger opts next w w1 Hn He).
    eexists. split; [reflexivity | now simpl].
  - rewrite (OnLevel_success logger lvl layout utc next w w1 Hn He).
    eexists. split.
    + destruct (Enabled logger lvl); simpl; [reflexivity | now rewrite app_nil_r].
    + now simpl.
Qed.

(** C9 (as amended).  On the success branch [OnLevel] asks the logger
    whether the level would be emitted before it builds any field: when
    the answer is no, it builds no field and writes no record, and when it
    is yes it builds its seven fields and writes one record.  [Logger]
    asks nothing: it builds its eight fields and the custom ones and hands
    them to the logger's Info, whatever the logger would let through. *)
Theorem level_precheck logger lvl layout utc opts next w w1 :
  next (after_Now w) = (Ok tt, w1) ->
  Errors (ctx w1) = [] ->
  let on_level := snd (ZapGo.OnLevel logger lvl layout utc next w) in
  let logger_ := snd (Part001.Logger logger opts next w) in
  (Enabled logger lvl = false ->
     built on_level = built w1 /\ sink on_level = sink w1) /\
  (Enabled logger lvl = true ->
     built on_level = built w1 + 7 /\ exists e, sink on_level = sink w1 ++ [e]) /\
  built logger_ = built w1 + 8 + length (Part001.customFields (Part001.apply_opts opts)) /\
  exists e, sink logger_ = sink w1 ++ [e].
Proof.
  intros Hn He on_level logger_. subst on_level logger_.
  rewrite (OnLevel_success logger lvl layout utc next w w1 Hn He).
  rewrite (Logger_success logger opts next w w1 Hn He).
  split; [| split; [| split]].
  - intros Hoff. rewrite Hoff. now simpl.
  - intros Hon. rewrite Hon. simpl. split; [reflexivity | eexists; reflexivity].
  - reflexivity.
  - eexists; reflexivity.
Qed.

End Properties.

(** * The properties on concrete requests *)

(** ** Recovery *)



Lemma recovery_broken_connection_witness :
  let w := freshWorld (demoRequest "/stream" "") in
  let run := @Part001.Recovery demoHost infoLogger true []
               (handler_panic (anyError epipe)) w in
  Part001.brokenPipe (anyError epipe) = true /\
  fst run = Ok tt /\
  sink (snd run) =
    [mkEntry ErrorLevel "/stream"
       [zap_Any "error" (anyError epipe);
        zap_ByteString "request" "GET /stream HTTP/1.1"]] /\
  (exists e, anyError epipe = anyError e /\ Errors (ctx (snd run)) = [e]) /\
  aborted (ctx (snd run)) = true /\
  Writer (ctx (snd run)) = mkWriter 200 false /\
  Req (ctx (snd run)) = demoRequest "/stream" "".
Proof.
  intros w run. split; [reflexivity |].
  apply (@recovery_broken_connection demoHost infoLogger true []
           (handler_panic (anyError epipe)) w (anyError epipe) w);
    reflexivity.
Defined.


Lemma plain_values_not_broken :
  Part001.brokenPipe (anyString "broken pipe") = false /\
  Part001.brokenPipe (anyError (errorString "broken pipe")) = false /\
  Part001.brokenPipe (anyError (SyscallError "write" (errorString "broken pipe"))) = false /\
  Part001.brokenPipe
    (anyError (OpError "write" "tcp" None None (errorString "broken pipe"))) = false /\
  Part001.brokenPipe
    (anyError (OpError "read" "tcp" None None
                 (SyscallError "read" (errorString "Connection Reset By Peer")))) = true.
Proof. repeat split. Qed.


(** ** Access loggers *)

(** TestGinzapWithConfig, the request to "/no_log": the handler runs (and
    here even rewrites the path), nothing is logged. *)
Lemma skipped_request_no_record_witness :
  let conf := testConfig ["/no_log"] None false in
  let w := freshWorld (demoRequest "/no_log" "") in
  let next := handler_rewrite "/elsewhere" "x=1" in
  let run := @WithConfig.GinzapWithConfig demoHost infoLogger conf next w in
  fst run = fst (next (after_Now w)) /\
  ctx (snd run) = ctx (snd (next (after_Now w))) /\
  sink (snd run) = [] /\
  built (snd run) = 0.
Proof.
  intros conf w next run.
  apply (@skipped_request_no_record demoHost infoLogger conf next w).
  right; left. simpl. left. reflexivity.
Defined.

(** The same through a skipper and through a pattern. *)
Lemma skipped_by_skipper_and_regexp :
  let w := freshWorld (demoRequest "/no_log" "") in
  let by_skipper :=
    testConfig [] (Some (fun c => (Path (Url (Req c)) =? "/no_log")%string)) false in
  let by_regexp :=
    WithConfig.mkConfig "" true [] [rxNoLog] None InfoLevel false [] None in
  sink (snd (@WithConfig.GinzapWithConfig demoHost infoLogger by_skipper handler_ok w)) = [] /\
  sink (snd (@WithConfig.GinzapWithConfig demoHost infoLogger by_regexp handler_ok w)) = [].
Proof. split; reflexivity. Qed.

Lemma success_record_fields_witness :
  let w := freshWorld (demoRequest "/test" "a=1") in
  let opts := [Part001.WithTimeFormat "15:04"; Part001.WithCustomFields [methodField]] in
  sink (snd (@Part001.Logger demoHost infoLogger opts handler_ok w)) =
    [mkEntry InfoLevel "/test"
       [zap_Int "status" 200%Z;
        zap_String "method" "GET";
        zap_String "path" "/test";
        zap_String "query" "a=1";
        zap_String "ip" "192.0.2.1";
        zap_String "user-agent" "curl";
        zap_String "time" "15:04";
        zap_Duration "latency" 1000%Z;
        zap_String "verb" "GET"]] /\
  sink (snd (@ZapGo.OnLevel demoHost infoLogger WarnLevel "15:04" true handler_ok w)) =
    [mkEntry WarnLevel "/test"
       [zap_Int "status" 200%Z;
        zap_String "method" "GET";
        zap_String "path" "/test";
        zap_String "ip" "192.0.2.1";
        zap_String "user-agent" "curl";
        zap_String "time" "15:04";
        zap_Duration "latency" 1000%Z]].
Proof.
  intros w opts.
  apply (@success_record_fields demoHost infoLogger WarnLevel "15:04" true opts
           handler_ok w (after_Now w)); reflexivity.
Defined.

(** [OnLevel]'s record has seven fields and none of them is the query;
    at a level the logger discards there is no record at all. *)
Lemma OnLevel_record_has_no_query :
  let w := freshWorld (demoRequest "/test" "a=1") in
  let run := @ZapGo.OnLevel demoHost infoLogger InfoLevel "15:04" true handler_ok w in
  let quiet := @ZapGo.OnLevel demoHost infoLogger DebugLevel "15:04" true handler_ok w in
  Errors (ctx (snd run)) = [] /\
  map (fun e => map Key (Fields e)) (sink (snd run)) =
    [["status"; "method"; "path"; "ip"; "user-agent"; "time"; "latency"]%string] /\
  map (fun e => map Key (Fields e)) (sink (snd run)) <>
    [["status"; "method"; "path"; "query"; "ip"; "user-agent"; "time"; "latency"]%string] /\
  Errors (ctx (snd quiet)) = [] /\
  sink (snd quiet) = [].
Proof.
  repeat split; discriminate.
Qed.


Lemma errors_one_record_each_witness :
  let w := freshWorld (demoRequest "/error" "") in
  let next := handler_errors ["error1"; "error2"]%string in
  let records := [mkEntry ErrorLevel "error1" []; mkEntry ErrorLevel "error2" []] in
  sink (snd (@ZapGo.OnLevel demoHost infoLogger InfoLevel "15:04" false next w)) = records /\
  sink (snd (@Part001.Logger demoHost infoLogger [] next w)) = records.
Proof.
  intros w next records.
  apply (@errors_one_record_each demoHost infoLogger InfoLevel "15:04" false []
           next w
           (mkWorld (mkContext (demoRequest "/error" "") (mkWriter 200 false)
                       [errorString "error1"; errorString "error2"] false)
                    [] 1 0)).
  - reflexivity.
  - discriminate.
Defined.

(** A downstream handler that rewrites path and query: the record still
    carries the inbound ones. *)
Lemma record_uses_captured_path_witness :
  let w := freshWorld (demoRequest "/test" "a=1") in
  let next := handler_rewrite "/internal" "b=2" in
  Path (Url (Req (ctx (snd (next (after_Now w)))))) = "/internal"%string /\
  (exists e,
     sink (snd (@Part001.Logger demoHost infoLogger [] next w)) = [e] /\
     Message e = "/test"%string /\
     nth_error (Fields e) 2 = Some (zap_String "path" "/test") /\
     nth_error (Fields e) 3 = Some (zap_String "query" "a=1")) /\
  (exists e,
     sink (snd (@ZapGo.OnLevel demoHost infoLogger InfoLevel "15:04" false next w)) = [e] /\
     Message e = "/test"%string /\
     nth_error (Fields e) 2 = Some (zap_String "path" "/test")).
Proof.
  intros w next. split; [reflexivity |].
  apply (@record_uses_captured_path demoHost infoLogger InfoLevel "15:04" false []
           next w (snd (next (after_Now w)))); reflexivity.
Defined.

Lemma level_precheck_witness :
  let w := freshWorld (demoRequest "/test" "") in
  let on_level := snd (@ZapGo.OnLevel demoHost infoLogger DebugLevel "15:04" true handler_ok w) in
  let logger_ := snd (@Part001.Logger demoHost infoLogger [] handler_ok w) in
  (Enabled infoLogger DebugLevel = false ->
     built on_level = 0 /\ sink on_level = []) /\
  (Enabled infoLogger DebugLevel = true ->
     built on_level = 7 /\ exists e, sink on_level = [e]) /\
  built logger_ = 8 /\
  exists e, sink logger_ = [e].
Proof.
  intros w on_level logger_.
  apply (@level_precheck demoHost infoLogger DebugLevel "15:04" true []
           handler_ok w (after_Now w)); reflexivity.
Defined.

(** [Logger] in front of a logger that discards Info: the eight fields
    are built and handed over all the same. *)
Lemma Logger_builds_fields_unchecked :
  let w := freshWorld (demoRequest "/test" "") in
  let run := @Part001.Logger demoHost errorLogger [] handler_ok w in
  Enabled errorLogger InfoLevel = false /\
  Errors (ctx (snd run)) = [] /\
  built (snd (handler_ok (after_Now w))) = 0 /\
  built (snd run) = 8 /\
  length (sink (snd run)) = 1.
Proof. repeat split. Qed.

(** * Further properties of the code *)

(** ** Package strings, as the classification uses it *)

Lemma ToLower_app (s t : string) :
  ToLower (s ++ t) = (ToLower s ++ ToLower t)%string.
Proof. induction s as [|a s IH]; simpl; [reflexivity | now rewrite IH]. Qed.

Lemma prefix_app (sub b : string) : prefix sub (sub ++ b) = true.
Proof.
  induction sub as [|a sub IH]; simpl.
  - now destruct b.
  - destruct (ascii_dec a a) as [_ | Hne]; [exact IH | now elim Hne].
Qed.

Lemma prefix_split (sub s : string) :
  prefix sub s = true -> exists b, s = (sub ++ b)%string.
Proof.
  revert s. induction sub as [|a sub IH]; intros s Hp.
  - exists s. reflexivity.
  - destruct s as [|c s]; simpl in Hp; [discriminate |].
    destruct (ascii_dec a c) as [-> | _]; [| discriminate].
    destruct (IH s Hp) as [b ->]. exists b. reflexivity.
Qed.

Lemma Contains_here (s sub : string) :
  prefix sub s = true -> Contains s sub = true.
Proof. intros Hp. destruct s; cbn [Contains]; rewrite Hp; reflexivity. Qed.

Lemma Contains_app_r (s t sub : string) :
  Contains t sub = true -> Contains (s ++ t) sub = true.
Proof.
  intros Ht. induction s as [|a s IH]; simpl.
  - exact Ht.
  - rewrite IH. apply orb_true_r.
Qed.

(** [strings.Contains] finds exactly the substrings. *)
Lemma Contains_iff (s sub : string) :
  Contains s sub = true <-> exists a b, s = (a ++ sub ++ b)%string.
Proof.
  split.
  - induction s as [|c s IH]; cbn [Contains];
      intros Hc; apply orb_true_iff in Hc; destruct Hc as [Hp | Hr].
    + destruct (prefix_split _ _ Hp) as [b Hb]. exists ""%string, b. exact Hb.
    + discriminate Hr.
    + destruct (prefix_split _ _ Hp) as [b Hb]. exists ""%string, b. exact Hb.
    + destruct (IH Hr) as (a & b & ->). exists (String c a), b. reflexivity.
  - intros (a & b & ->). apply Contains_app_r, Contains_here, prefix_app.
Qed.

(** X1.  Whatever the operation, network and addresses of the
    [*net.OpError] and whatever the name of the system call, the panic is
    classified as a broken connection as soon as the text of the error
    inside the [*os.SyscallError] has "broken pipe" or "connection reset
    by peer" in it, in any letter case. *)
Theorem brokenPipe_by_inner_text op net src addr sc inner :
  (Contains (ToLower (Error inner)) "broken pipe" = true \/
   Contains (ToLower (Error inner)) "connection reset by peer" = true) ->
  Part001.brokenPipe
    (anyError (OpError op net src addr (SyscallError sc inner))) = true.
Proof.
  intros Hc. unfold Part001.brokenPipe. cbn [Error].
  rewrite !ToLower_app. apply orb_true_iff.
  destruct Hc as [Hc | Hc]; [left | right];
    apply Contains_app_r, Contains_app_r, Hc.
Qed.

Lemma brokenPipe_by_inner_text_witness :
  Part001.brokenPipe
    (anyError (OpError "read" "tcp" (Some "10.0.0.1:80") (Some "10.0.0.2:5000")
                 (SyscallError "recvfrom"
                    (errorString "Connection RESET by peer")))) = true.
Proof.
  apply brokenPipe_by_inner_text. right. reflexivity.
Defined.

(** ** The functional options *)

Lemma fold_opts_keeps {A} (proj : Part001.Config -> A) (rest : list Part001.Option) :
  Forall (fun o => forall c, proj (o c) = proj c) rest ->
  forall cfg, proj (fold_left (fun cfg opt => opt cfg) rest cfg) = proj cfg.
Proof.
  induction 1 as [|o rest Ho _ IH]; intros cfg; simpl.
  - reflexivity.
  - now rewrite IH, Ho.
Qed.

Lemma keeps_timeFormat_ok rest :
  Forall keeps_timeFormat rest ->
  Forall (fun o => forall c, Part001.timeFormat (o c) = Part001.timeFormat c) rest.
Proof.
  apply Forall_impl. intros o [[b ->] | [fs ->]] c; reflexivity.
Qed.

Lemma keeps_utc_ok rest :
  Forall keeps_utc rest ->
  Forall (fun o => forall c, Part001.utc (o c) = Part001.utc c) rest.
Proof.
  apply Forall_impl. intros o [[l ->] | [fs ->]] c; reflexivity.
Qed.

Lemma keeps_customFields_ok rest :
  Forall keeps_customFields rest ->
  Forall (fun o => forall c, Part001.customFields (o c) = Part001.customFields c) rest.
Proof.
  apply Forall_impl. intros o [[l ->] | [b ->]] c; reflexivity.
Qed.

(** X2.  Options are applied in order and each sets one field: the time
    format, the UTC switch and the custom fields of the resolved Config
    are those of the last option of their kind in the list.  In
    particular a later [WithCustomFields] replaces the fields of an
    earlier one; it does not add to them. *)
Theorem last_option_of_a_kind_wins opts r1 r2 r3 layout b fs :
  Forall keeps_timeFormat r1 ->
  Forall keeps_utc r2 ->
  Forall keeps_customFields r3 ->
  Part001.timeFormat (Part001.apply_opts (opts ++ Part001.WithTimeFormat layout :: r1)) = layout /\
  Part001.utc (Part001.apply_opts (opts ++ Part001.WithUTC b :: r2)) = b /\
  Part001.customFields (Part001.apply_opts (opts ++ Part001.WithCustomFields fs :: r3)) = fs.
Proof.
  intros H1 H2 H3. unfold Part001.apply_opts.
  rewrite !fold_left_app. cbn [fold_left]. repeat split.
  - now rewrite (fold_opts_keeps _ r1 (keeps_timeFormat_ok r1 H1)).
  - now rewrite (fold_opts_keeps _ r2 (keeps_utc_ok r2 H2)).
  - now rewrite (fold_opts_keeps _ r3 (keeps_customFields_ok r3 H3)).
Qed.

Lemma last_option_of_a_kind_wins_witness :
  let opts := [Part001.WithTimeFormat "a"; Part001.WithUTC true;
               Part001.WithCustomFields [methodField; methodField]] in
  Part001.timeFormat
    (Part001.apply_opts (opts ++
       Part001.WithTimeFormat "b" :: [Part001.WithUTC true])) = "b"%string /\
  Part001.utc
    (Part001.apply_opts (opts ++
       Part001.WithUTC false :: [Part001.WithTimeFormat "a"])) = false /\
  Part001.customFields
    (Part001.apply_opts (opts ++
       Part001.WithCustomFields [methodField] :: [Part001.WithUTC true])) = [methodField].
Proof.
  intros opts. apply last_option_of_a_kind_wins.
  - apply Forall_cons; [left; now exists true | apply Forall_nil].
  - apply Forall_cons; [left; now exists "a"%string | apply Forall_nil].
  - apply Forall_cons; [right; now exists true | apply Forall_nil].
Defined.

(** X3.  A field no option of the list sets keeps its default:
    [time.RFC3339Nano], local time, no custom field. *)
Theorem unset_options_keep_defaults o1 o2 o3 :
  Forall keeps_timeFormat o1 ->
  Forall keeps_utc o2 ->
  Forall keeps_customFields o3 ->
  Part001.timeFormat (Part001.apply_opts o1) = Part001.RFC3339Nano /\
  Part001.utc (Part001.apply_opts o2) = false /\
  Part001.customFields (Part001.apply_opts o3) = [].
Proof.
  intros H1 H2 H3. unfold Part001.apply_opts. repeat split.
  - now rewrite (fold_opts_keeps _ o1 (keeps_timeFormat_ok o1 H1)).
  - now rewrite (fold_opts_keeps _ o2 (keeps_utc_ok o2 H2)).
  - now rewrite (fold_opts_keeps _ o3 (keeps_customFields_ok o3 H3)).
Qed.

Lemma unset_options_keep_defaults_witness :
  Part001.timeFormat
    (Part001.apply_opts [Part001.WithUTC true; Part001.WithCustomFields [methodField]])
    = Part001.RFC3339Nano /\
  Part001.utc
    (Part001.apply_opts [Part001.WithTimeFormat "15:04"; Part001.WithCustomFields []])
    = false /\
  Part001.customFields
    (Part001.apply_opts [Part001.WithTimeFormat "15:04"; Part001.WithUTC true]) = [].
Proof.
  apply unset_options_keep_defaults.
  - apply Forall_cons; [left; now exists true |].
    apply Forall_cons; [right; now exists [methodField] | apply Forall_nil].
  - apply Forall_cons; [left; now exists "15:04"%string |].
    apply Forall_cons; [right; now exists [] | apply Forall_nil].
  - apply Forall_cons; [left; now exists "15:04"%string |].
    apply Forall_cons; [right; now exists true | apply Forall_nil].
Defined.

(** ** The handlers one by one *)

Section Layers.
Context `{Host}.


(** X4.  The access loggers do not recover: a panic of the downstream
    chain leaves [OnLevel] and [Logger] as it came, and nothing is logged,
    built or read from the clock after it, even when errors had been
    accumulated before the panic. *)
Theorem access_loggers_pass_panics logger lvl layout utc opts next w v w1 :
  next (after_Now w) = (Panic v, w1) ->
  ZapGo.OnLevel logger lvl layout utc next w = (Panic v, w1) /\
  Part001.Logger logger opts next w = (Panic v, w1).
Proof.
  intros Hn. split.
  - apply OnLevel_panics, Hn.
  - apply Logger_panics, Hn.
Qed.


(** X6.  On the error branch nothing of the configuration is used: the
    level, the time layout, the UTC switch, the options and the logger's
    own level leave the run of [OnLevel] and of [Logger] unchanged, and
    the two handlers do the same. *)
Theorem error_branch_ignores_configuration
    logger lvl layout utc logger' lvl' layout' utc' opts opts' next w w1 :
  next (after_Now w) = (Ok tt, w1) ->
  Errors (ctx w1) <> [] ->
  ZapGo.OnLevel logger lvl layout utc next w =
    ZapGo.OnLevel logger' lvl' layout' utc' next w /\
  Part001.Logger logger opts next w = Part001.Logger logger' opts' next w /\
  Part001.Logger logger opts next w = ZapGo.OnLevel logger lvl layout utc next w.
Proof.
  intros Hn He.
  rewrite !(OnLevel_errors _ _ _ _ next w w1 Hn He).
  rewrite !(Logger_errors _ _ next w w1 Hn He).
  repeat split.
Qed.

(** X7.  Without a panic, and also after [panic(nil)], [Recovery] is
    invisible: it returns with the world exactly as the downstream chain
    left it, no record, no clock reading, no status, no abort. *)
Theorem Recovery_invisible_without_panic logger stack opts next w w1 :
  next w = (Ok tt, w1) \/ next w = (Panic anyNil, w1) ->
  Part001.Recovery logger stack opts next w = (Ok tt, w1).
Proof.
  intros [Hn | Hn].
  - apply Recovery_no_panic, Hn.
  - apply Recovery_nil_panic, Hn.
Qed.




End Layers.

(** ** The handlers stacked

    The records of all the loggers of a stack are kept in one sequence,
    in the order in which they are handed over. *)

Section Stacks.
Context `{Host}.


(** X12.  The same stack and a broken-connection panic: [Recovery] writes
    its record and registers the panic as an error, so the access logger
    takes its error branch: one Error record per accumulated error, the
    panic's own text last, and no access record for the request. *)
Theorem Logger_around_Recovery_broken logger lopts stack ropts next w e w1 :
  next (after_Now w) = (Panic (anyError e), w1) ->
  Part001.brokenPipe (anyError e) = true ->
  let run := Part001.Logger logger lopts (Part001.Recovery logger stack ropts next) w in
  fst run = Ok tt /\
  sink (snd run) =
    sink w1
    ++ [mkEntry ErrorLevel (Path (Url (Req (ctx w1))))
          [zap_Any "error" (anyError e);
           zap_ByteString "request" (DumpRequest (Req (ctx w1)) false)]]
    ++ map (fun x => mkEntry ErrorLevel (Error x) []) (Errors (ctx w1))
    ++ [mkEntry ErrorLevel (Error e) []] /\
  Writer (ctx (snd run)) = Writer (ctx w1).
Proof.
  intros Hn Hb run. subst run.
  pose proof (Recovery_broken logger stack ropts next (after_Now w) e w1 Hn Hb) as Hin.
  rewrite (Logger_errors logger lopts _ w _ Hin).
  - cbn [fst snd sink ctx Errors Writer]. unfold error_entries. cbn [Errors].
    rewrite map_app, <- app_assoc. repeat split.
  - cbn [ctx Errors]. intros Hnil. apply app_eq_nil in Hnil. destruct Hnil; discriminate.
Qed.


(** X14.  src/example/main.go attaches [Ginzap] and then [OnLevel] at
    Debug on the same logger.  With a logger that lets Info through and
    not Debug, a request without errors gets one record, from [Ginzap]
    at Info; a request with errors gets each of its errors logged twice,
    the batch of the inner handler first. *)
Theorem example_stack logger layout utc next w w1 :
  Enabled logger InfoLevel = true ->
  Enabled logger DebugLevel = false ->
  next (after_Now (after_Now w)) = (Ok tt, w1) ->
  let run := ZapGo.Ginzap logger layout utc
               (ZapGo.OnLevel logger DebugLevel layout utc next) w in
  let errors := map (fun e => mkEntry ErrorLevel (Error e) []) (Errors (ctx w1)) in
  (Errors (ctx w1) = [] ->
     exists a, sink (snd run) = sink w1 ++ [a] /\
               entryLevel a = InfoLevel /\
               Message a = Path (Url (Req (ctx w)))) /\
  (Errors (ctx w1) <> [] ->
     sink (snd run) = sink w1 ++ errors ++ errors).
Proof.
  intros Hi Hd Hn run errors. subst run errors. unfold ZapGo.Ginzap. split.
  - intros He.
    pose proof (OnLevel_success logger DebugLevel layout utc next (after_Now w) w1 Hn He) as Hin.
    rewrite Hd in Hin.
    rewrite (OnLevel_success logger InfoLevel layout utc _ w _ Hin He), Hi.
    cbn [snd sink]. eexists. repeat split.
  - intros He.
    pose proof (OnLevel_errors logger DebugLevel layout utc next (after_Now w) w1 Hn He) as Hin.
    rewrite (OnLevel_errors logger InfoLevel layout utc _ w _ Hin He).
    cbn [snd sink ctx]. unfold error_entries. now rewrite <- app_assoc.
Qed.

(** X15.  Two [Ginzap] handlers stacked, as TestGinzap attaches them (one
    in UTC, one local): the request gets two records, the inner handler's
    first, both with the inbound path as message and as "path" field; and
    with a clock that never goes back the latency of the outer record is
    at least that of the inner one. *)
Theorem two_Ginzap_stacked utcLogger localLogger layout next w w1 :
  monotone_clock ->
  next (after_Now (after_Now w)) = (Ok tt, w1) ->
  Errors (ctx w1) = [] ->
  let run := Part001.Ginzap utcLogger layout true
               (Part001.Ginzap localLogger layout false next) w in
  let path := Path (Url (Req (ctx w))) in
  exists inner outer d_in d_out,
    sink (snd run) = sink w1 ++ [inner; outer] /\
    Message inner = path /\ Message outer = path /\
    nth_error (Fields inner) 2 = Some (zap_String "path" path) /\
    nth_error (Fields outer) 2 = Some (zap_String "path" path) /\
    nth_error (Fields inner) 7 = Some (zap_Duration "latency" d_in) /\
    nth_error (Fields outer) 7 = Some (zap_Duration "latency" d_out) /\
    (d_in <= d_out)%Z.
Proof.
  intros Hm Hn He run path. subst run path. unfold Part001.Ginzap.
  pose proof (Logger_success localLogger
                [Part001.WithTimeFormat layout; Part001.WithUTC false]
                next (after_Now w) w1 Hn He) as Hin.
  cbv zeta in Hin.
  rewrite (Logger_success utcLogger
             [Part001.WithTimeFormat layout; Part001.WithUTC true] _ w _ Hin He).
  cbn [snd sink ctx ticks after_Now]. do 4 eexists.
  rewrite <- app_assoc. cbn [app].
  split; [reflexivity |]. cbn.
  repeat (split; [reflexivity |]).
  unfold Sub.
  pose proof (Hm (ticks w) (S (ticks w)) (Nat.le_succ_diag_r _)).
  pose proof (Hm (ticks w1) (S (ticks w1)) (Nat.le_succ_diag_r _)).
  lia.
Qed.

End Stacks.

(** ** Time and the two versions of Ginzap *)

Section Times.
Context `{Host}.

(** X16.  The latency is taken between the two clock readings before the
    UTC conversion: with a clock that never goes back and a downstream
    chain that does not reset the count of readings, the "latency" field
    of the access record is the difference of the two instants and is
    not negative, with and without UTC. *)
Theorem latency_not_negative logger lvl layout utc opts next w w1 :
  monotone_clock ->
  (ticks w <= ticks w1)%nat ->
  next (after_Now w) = (Ok tt, w1) ->
  Errors (ctx w1) = [] ->
  Enabled logger lvl = true ->
  let d := (instant (clock (ticks w1)) - instant (clock (ticks w)))%Z in
  (0 <= d)%Z /\
  (exists e, sink (snd (Part001.Logger logger opts next w)) = sink w1 ++ [e] /\
             nth_error (Fields e) 7 = Some (zap_Duration "latency" d)) /\
  (exists e, sink (snd (ZapGo.OnLevel logger lvl layout utc next w)) = sink w1 ++ [e] /\
             nth_error (Fields e) 6 = Some (zap_Duration "latency" d)).
Proof.
  intros Hm Ht Hn He Hl d. subst d. split; [| split].
  - specialize (Hm _ _ Ht). lia.
  - rewrite (Logger_success logger opts next w w1 Hn He).
    eexists. split; reflexivity.
  - rewrite (OnLevel_success logger lvl layout utc next w w1 Hn He), Hl.
    eexists. split; reflexivity.
Qed.

(** X17.  The "time" field of a [Ginzap] record, in both versions, is the
    second clock reading in the given layout: the same instant, in UTC
    when [utc] is set and in the clock's own location otherwise. *)
Theorem Ginzap_time_field logger layout (utc : bool) next w w1 :
  next (after_Now w) = (Ok tt, w1) ->
  Errors (ctx w1) = [] ->
  Enabled logger InfoLevel = true ->
  let end_ := clock (ticks w1) in
  exists t,
    instant t = instant end_ /\
    location t = (if utc then UTCLoc else location end_) /\
    (exists e, sink (snd (Part001.Ginzap logger layout utc next w)) = sink w1 ++ [e] /\
               nth_error (Fields e) 6 = Some (zap_String "time" (Format t layout))) /\
    (exists e, sink (snd (ZapGo.Ginzap logger layout utc next w)) = sink w1 ++ [e] /\
               nth_error (Fields e) 5 = Some (zap_String "time" (Format t layout))).
Proof.
  intros Hn He Hl end_. subst end_.
  exists (if utc then UTC (clock (ticks w1)) else clock (ticks w1)).
  split; [now destruct utc |]. split; [now destruct utc |].
  unfold Part001.Ginzap, ZapGo.Ginzap. split.
  - rewrite (Logger_success logger _ next w w1 Hn He).
    eexists. split; reflexivity.
  - rewrite (OnLevel_success logger InfoLevel layout utc next w w1 Hn He), Hl.
    eexists. split; reflexivity.
Qed.

(** X18.  [Ginzap] of src/zap.go and [Ginzap] of part_001, on the same
    logger, layout and UTC switch: when the request ends with errors the
    two do exactly the same; when it ends without and the logger lets
    Info through, the later version writes the record of the earlier one
    with the "query" field put in after "path". *)
Theorem Ginzap_versions logger layout utc next w w1 :
  next (after_Now w) = (Ok tt, w1) ->
  Enabled logger InfoLevel = true ->
  let old := ZapGo.Ginzap logger layout utc next w in
  let new := Part001.Ginzap logger layout utc next w in
  (Errors (ctx w1) <> [] -> new = old) /\
  (Errors (ctx w1) = [] ->
     exists e,
       sink (snd old) = sink w1 ++ [e] /\
       sink (snd new) =
         sink w1 ++
         [mkEntry (entryLevel e) (Message e)
            (firstn 3 (Fields e)
             ++ zap_String "query" (RawQuery (Url (Req (ctx w))))
             :: skipn 3 (Fields e))]).
Proof.
  intros Hn Hl old new. subst old new. unfold Part001.Ginzap, ZapGo.Ginzap. split.
  - intros He.
    rewrite (Logger_errors logger _ next w w1 Hn He).
    now rewrite (OnLevel_errors logger InfoLevel layout utc next w w1 Hn He).
  - intros He.
    rewrite (Logger_success logger _ next w w1 Hn He).
    rewrite (OnLevel_success logger InfoLevel layout utc next w w1 Hn He), Hl.
    eexists. split; reflexivity.
Qed.

End Times.

(** ** The further properties on concrete requests *)

Lemma access_loggers_pass_panics_witness :
  let w := freshWorld (demoRequest "/test" "") in
  let next := handler_error_then_panic "e1" (anyString "boom") in
  let w1 := snd (next (after_Now w)) in
  Errors (ctx w1) = [errorString "e1"] /\
  sink w1 = [] /\
  @ZapGo.OnLevel demoHost infoLogger InfoLevel "15:04" true next w
    = (Panic (anyString "boom"), w1) /\
  @Part001.Logger demoHost infoLogger [] next w = (Panic (anyString "boom"), w1).
Proof.
  intros w next w1. split; [reflexivity |]. split; [reflexivity |].
  apply (@access_loggers_pass_panics demoHost infoLogger InfoLevel "15:04" true []
           next w (anyString "boom") w1).
  reflexivity.
Defined.

Lemma error_branch_ignores_configuration_witness :
  let w := freshWorld (demoRequest "/error" "") in
  let next := handler_errors ["error1"; "error2"]%string in
  @ZapGo.OnLevel demoHost infoLogger InfoLevel "15:04" true next w =
    @ZapGo.OnLevel demoHost errorLogger DebugLevel "2006" false next w /\
  @Part001.Logger demoHost infoLogger [] next w =
    @Part001.Logger demoHost errorLogger
      [Part001.WithUTC true; Part001.WithCustomFields [methodField]] next w /\
  @Part001.Logger demoHost infoLogger [] next w =
    @ZapGo.OnLevel demoHost infoLogger InfoLevel "15:04" true next w.
Proof.
  intros w next.
  apply (@error_branch_ignores_configuration demoHost
           infoLogger InfoLevel "15:04" true errorLogger DebugLevel "2006" false
           [] [Part001.WithUTC true; Part001.WithCustomFields [methodField]]
           next w (snd (next (after_Now w)))).
  - reflexivity.
  - discriminate.
Defined.

Lemma Recovery_invisible_without_panic_witness :
  let w := freshWorld (demoRequest "/test" "") in
  let next := handler_rewrite "/internal" "" in
  @Part001.Recovery demoHost infoLogger true [] next w = next w.
Proof.
  intros w next.
  apply (@Recovery_invisible_without_panic demoHost infoLogger true [] next w (snd (next w))).
  left. reflexivity.
Defined.




Lemma Logger_around_Recovery_broken_witness :
  let w := freshWorld (demoRequest "/stream" "") in
  let next := handler_error_then_panic "e1" (anyError epipe) in
  let run := @Part001.Logger demoHost infoLogger []
               (@Part001.Recovery demoHost infoLogger false [] next) w in
  fst run = Ok tt /\
  sink (snd run) =
    [mkEntry ErrorLevel "/stream"
       [zap_Any "error" (anyError epipe);
        zap_ByteString "request" "GET /stream HTTP/1.1"];
     mkEntry ErrorLevel "e1" [];
     mkEntry ErrorLevel "write tcp 192.0.2.1:4242: write: broken pipe" []] /\
  Writer (ctx (snd run)) = mkWriter 200 false.
Proof.
  intros w next.
  apply (@Logger_around_Recovery_broken demoHost infoLogger [] false [] next w
           epipe (snd (next (after_Now w)))).
  - reflexivity.
  - reflexivity.
Defined.


Lemma example_stack_witness :
  let w := freshWorld (demoRequest "/ping" "") in
  let stack := fun next =>
    @ZapGo.Ginzap demoHost infoLogger "15:04" true
      (@ZapGo.OnLevel demoHost infoLogger DebugLevel "15:04" true next) in
  (exists a, sink (snd (stack handler_ok w)) = [a] /\
             entryLevel a = InfoLevel /\ Message a = "/ping"%string) /\
  sink (snd (stack (handler_errors ["e1"; "e2"]%string) w)) =
    [mkEntry ErrorLevel "e1" []; mkEntry ErrorLevel "e2" [];
     mkEntry ErrorLevel "e1" []; mkEntry ErrorLevel "e2" []].
Proof.
  intros w stack. split.
  - apply (@example_stack demoHost infoLogger "15:04" true handler_ok w
             (after_Now (after_Now w))); reflexivity.
  - apply (@example_stack demoHost infoLogger "15:04" true
             (handler_errors ["e1"; "e2"]%string) w
             (snd (handler_errors ["e1"; "e2"]%string (after_Now (after_Now w)))));
      try reflexivity.
    discriminate.
Defined.

Lemma two_Ginzap_stacked_witness :
  let w := freshWorld (demoRequest "/test" "") in
  let run := @Part001.Ginzap demoHost infoLogger "15:04" true
               (@Part001.Ginzap demoHost infoLogger "15:04" false
                  (handler_rewrite "/internal" "")) w in
  exists inner outer d_in d_out,
    sink (snd run) = [inner; outer] /\
    Message inner = "/test"%string /\ Message outer = "/test"%string /\
    nth_error (Fields inner) 2 = Some (zap_String "path" "/test") /\
    nth_error (Fields outer) 2 = Some (zap_String "path" "/test") /\
    nth_error (Fields inner) 7 = Some (zap_Duration "latency" d_in) /\
    nth_error (Fields outer) 7 = Some (zap_Duration "latency" d_out) /\
    (d_in <= d_out)%Z.
Proof.
  intros w.
  apply (@two_Ginzap_stacked demoHost infoLogger infoLogger "15:04"
           (handler_rewrite "/internal" "") w
           (snd (handler_rewrite "/internal" "" (after_Now (after_Now w))))).
  - intros n m Hnm.
    change (1000 * Z.of_nat n <= 1000 * Z.of_nat m)%Z. lia.
  - reflexivity.
  - reflexivity.
Defined.

Lemma latency_not_negative_witness :
  let w := freshWorld (demoRequest "/test" "") in
  (0 <= 1000)%Z /\
  (exists e, sink (snd (@Part001.Logger demoHost infoLogger [] handler_ok w)) = [e] /\
             nth_error (Fields e) 7 = Some (zap_Duration "latency" 1000%Z)) /\
  (exists e, sink (snd (@ZapGo.OnLevel demoHost infoLogger InfoLevel "15:04" true
                          handler_ok w)) = [e] /\
             nth_error (Fields e) 6 = Some (zap_Duration "latency" 1000%Z)).
Proof.
  intros w.
  apply (@latency_not_negative demoHost infoLogger InfoLevel "15:04" true []
           handler_ok w (after_Now w)).
  - intros n m Hnm.
    change (1000 * Z.of_nat n <= 1000 * Z.of_nat m)%Z. lia.
  - simpl. lia.
  - reflexivity.
  - reflexivity.
  - reflexivity.
Defined.

Lemma Ginzap_time_field_witness :
  let w := freshWorld (demoRequest "/test" "") in
  exists t,
    instant t = 1000%Z /\
    location t = UTCLoc /\
    (exists e, sink (snd (@Part001.Ginzap demoHost infoLogger "15:04" true handler_ok w)) = [e] /\
               nth_error (Fields e) 6 = Some (zap_String "time" (@Format demoHost t "15:04"))) /\
    (exists e, sink (snd (@ZapGo.Ginzap demoHost infoLogger "15:04" true handler_ok w)) = [e] /\
               nth_error (Fields e) 5 = Some (zap_String "time" (@Format demoHost t "15:04"))).
Proof.
  intros w.
  apply (@Ginzap_time_field demoHost infoLogger "15:04" true handler_ok w (after_Now w));
    reflexivity.
Defined.

Lemma Ginzap_versions_witness :
  let w := freshWorld (demoRequest "/test" "a=1") in
  let old := @ZapGo.Ginzap demoHost infoLogger "15:04" true handler_ok w in
  let new := @Part001.Ginzap demoHost infoLogger "15:04" true handler_ok w in
  (Errors (ctx (after_Now w)) <> [] -> new = old) /\
  (Errors (ctx (after_Now w)) = [] ->
     exists e,
       sink (snd old) = [e] /\
       sink (snd new) =
         [mkEntry (entryLevel e) (Message e)
            (firstn 3 (Fields e) ++ zap_String "query" "a=1" :: skipn 3 (Fields e))]).
Proof.
  intros w.
  apply (@Ginzap_versions demoHost infoLogger "15:04" true handler_ok w (after_Now w));
    reflexivity.
Defined.
